(** * tview Checkbox: a shallow embedding of checkbox.go

    The widget of [checkbox.go] is embedded as Rocq functions:
    - the setters are functions on the [Checkbox] record;
    - [Draw] threads a [tcell.Screen] through the calls it makes;
    - the closure returned by [InputHandler] is a transition on a [World]
      made of the widget, the state of the application that owns it, and
      the record of the callback invocations made so far.

    The types of package [tcell] (keys, colours, styles, the screen) are not
    part of this repository; module [tcell] gives them the shape that
    [checkbox.go] relies on.  [Box.Draw] and [Print], which live in other
    files of the package, are parameters of the section that defines [Draw]. *)

From stdpp Require Import gmap strings list.
From Stdlib Require Import ZArith Lia.

Local Open Scope Z_scope.

(** ** Go's [int]

    [int] is a 64-bit two's complement integer on the targets tview is built
    for; [+], [-], [++] and [-=] wrap around. *)

Definition int := Z.

Definition wrap (z : Z) : int := (z + 2 ^ 63) `mod` 2 ^ 64 - 2 ^ 63.

Definition add (a b : int) : int := wrap (a + b).

Definition sub (a b : int) : int := wrap (a - b).

Definition in_int (z : Z) : Prop := - 2 ^ 63 <= z < 2 ^ 63.

(** [rune] is an alias of [int32]; only comparisons with literals are made. *)
Definition rune := Z.

Definition rune_space : rune := 32.

Definition rune_X : rune := 88.

(** ** Package tcell, as far as checkbox.go uses it *)

Module tcell.

Definition Color := Z.

(** The key constants that the [switch] of [InputHandler] names are
    pairwise distinct (Go refuses duplicate constant cases), so the keys
    form an enumeration; [KeyOther] stands for each remaining key. *)
Inductive Key :=
| KeyRune
| KeyEnter
| KeyTab
| KeyBacktab
| KeyEscape
| KeyOther (code : nat).

(** [*tcell.EventKey], read through its methods [Key()] and [Rune()]. *)
Record EventKey := NewEventKey { Key_ : Key; Rune : rune }.

(** A style carries a foreground and a background colour;
    [Foreground] and [Background] return an updated copy. *)
Record Style := mkStyle { fg : Color; bg : Color }.

Definition ColorDefault : Color := -1.

Definition StyleDefault : Style := mkStyle ColorDefault ColorDefault.

Definition Background (c : Color) (s : Style) : Style := mkStyle (fg s) c.

Definition Foreground (c : Color) (s : Style) : Style := mkStyle c (bg s).

(** One cell of the screen. *)
Record Cell := mkCell { mainc : rune; combc : list rune; style : Style }.

(** The two methods of [tcell.Screen] that [Draw] calls. *)
Inductive ScreenCall :=
| CallSetContent (x y : int) (mainc : rune) (combc : list rune) (style : Style)
| CallHideCursor.

(** A screen that keeps its cells, the position of the cursor ([None]
    when hidden) and the calls it has received, oldest first. The grid is
    unbounded: a write is kept whatever its coordinates. *)
Record Screen := mkScreen {
  cells : gmap (Z * Z) Cell;
  cursor : option (Z * Z);
  history : list ScreenCall
}.

Definition SetContent (x y : int) (mainc : rune) (combc : list rune)
    (style : Style) (s : Screen) : Screen :=
  mkScreen (<[(x, y) := mkCell mainc combc style]> (cells s))
           (cursor s)
           (history s ++ [CallSetContent x y mainc combc style]).

Definition HideCursor (s : Screen) : Screen :=
  mkScreen (cells s) None (history s ++ [CallHideCursor]).

(** What a user sees of a screen. *)
Definition content (s : Screen) : gmap (Z * Z) Cell * option (Z * Z) :=
  (cells s, cursor s).

End tcell.

(** ** The Box base and the Checkbox *)

(** [c.focus] is a [Focusable]; [Draw] only asks it [HasFocus()]. *)
Record Focusable := mkFocusable { HasFocus : bool }.

(** The fields of [Box] that checkbox.go reads or writes. *)
Record Box := mkBox {
  x : int;
  y : int;
  width : int;
  height : int;
  border : bool;
  backgroundColor : tcell.Color;
  focus : Focusable
}.

(** A Go [func] value is a reference to a closure; [nil] is [None] in the
    fields below.  What a closure does when called is given by the program
    that installed it (section [Input]). *)
Definition Func := nat.

Record Checkbox := mkCheckbox {
  Box_ : Box;
  checked : bool;
  label : string;
  labelColor : tcell.Color;
  fieldBackgroundColor : tcell.Color;
  fieldTextColor : tcell.Color;
  changed : option Func;
  done : option Func
}.

(** Field assignments [c.f = v]. *)
Definition set_checked (v : bool) (c : Checkbox) : Checkbox :=
  mkCheckbox (Box_ c) v (label c) (labelColor c) (fieldBackgroundColor c)
             (fieldTextColor c) (changed c) (done c).

Definition set_label (v : string) (c : Checkbox) : Checkbox :=
  mkCheckbox (Box_ c) (checked c) v (labelColor c) (fieldBackgroundColor c)
             (fieldTextColor c) (changed c) (done c).

Definition set_labelColor (v : tcell.Color) (c : Checkbox) : Checkbox :=
  mkCheckbox (Box_ c) (checked c) (label c) v (fieldBackgroundColor c)
             (fieldTextColor c) (changed c) (done c).

Definition set_fieldBackgroundColor (v : tcell.Color) (c : Checkbox) : Checkbox :=
  mkCheckbox (Box_ c) (checked c) (label c) (labelColor c) v
             (fieldTextColor c) (changed c) (done c).

Definition set_fieldTextColor (v : tcell.Color) (c : Checkbox) : Checkbox :=
  mkCheckbox (Box_ c) (checked c) (label c) (labelColor c)
             (fieldBackgroundColor c) v (changed c) (done c).

Definition set_changed (v : option Func) (c : Checkbox) : Checkbox :=
  mkCheckbox (Box_ c) (checked c) (label c) (labelColor c)
             (fieldBackgroundColor c) (fieldTextColor c) v (done c).

Definition set_done (v : option Func) (c : Checkbox) : Checkbox :=
  mkCheckbox (Box_ c) (checked c) (label c) (labelColor c)
             (fieldBackgroundColor c) (fieldTextColor c) (changed c) v.

Definition set_backgroundColor (v : tcell.Color) (c : Checkbox) : Checkbox :=
  let b := Box_ c in
  mkCheckbox (mkBox (x b) (y b) (width b) (height b) (border b) v (focus b))
             (checked c) (label c) (labelColor c) (fieldBackgroundColor c)
             (fieldTextColor c) (changed c) (done c).

(** *** The setters (checkbox.go, lines 47-115); each returns the widget *)

Definition SetChecked (checked : bool) (c : Checkbox) : Checkbox :=
  set_checked checked c.

Definition SetLabel (label : string) (c : Checkbox) : Checkbox :=
  set_label label c.


Definition SetLabelColor (color : tcell.Color) (c : Checkbox) : Checkbox :=
  set_labelColor color c.

Definition SetFieldBackgroundColor (color : tcell.Color) (c : Checkbox) : Checkbox :=
  set_fieldBackgroundColor color c.

Definition SetFieldTextColor (color : tcell.Color) (c : Checkbox) : Checkbox :=
  set_fieldTextColor color c.

Definition SetFormAttributes (label : string)
    (labelColor bgColor fieldTextColor fieldBgColor : tcell.Color)
    (c : Checkbox) : Checkbox :=
  let c := set_label label c in
  let c := set_labelColor labelColor c in
  let c := set_backgroundColor bgColor c in
  let c := set_fieldTextColor fieldTextColor c in
  let c := set_fieldBackgroundColor fieldBgColor c in
  c.

Definition SetChangedFunc (handler : option Func) (c : Checkbox) : Checkbox :=
  set_changed handler c.

Definition SetDoneFunc (handler : option Func) (c : Checkbox) : Checkbox :=
  set_done handler c.

Definition SetFinishedFunc (handler : option Func) (c : Checkbox) : Checkbox :=
  SetDoneFunc handler c.

(** ** Draw (checkbox.go, lines 117-154) *)

(** Modelled from the spec: the alignment argument of the text printer
    ([AlignLeft] and its siblings are declared next to [Print], outside
    checkbox.go). *)
Inductive Align := AlignLeft | AlignCenter | AlignRight.

(** The "Prepare" block (lines 122-131): the rectangle [Draw] works in, as
    the tuple [(x, y, rightLimit, height)]. *)
Definition prepare (b : Box) : int * int * int * int :=
  let x := x b in
  let y := y b in
  let rightLimit := add x (width b) in
  let height := height b in
  if border b
  then (add x 1, add y 1, sub rightLimit 2, sub height 2)
  else (x, y, rightLimit, height).

(** The guard of line 132. *)
Definition tooSmall (b : Box) : bool :=
  let '(x, _, rightLimit, height) := prepare b in
  (height <? 1) || (rightLimit <=? x).

(** Lines 140-143. *)
Definition fieldStyle (c : Checkbox) : tcell.Style :=
  let fieldStyle :=
    tcell.Foreground (fieldTextColor c)
      (tcell.Background (fieldBackgroundColor c) tcell.StyleDefault) in
  if HasFocus (focus (Box_ c))
  then tcell.Foreground (fieldBackgroundColor c)
         (tcell.Background (fieldTextColor c) fieldStyle)
  else fieldStyle.

(** Lines 144-147. *)
Definition checkedRune (c : Checkbox) : rune :=
  if negb (checked c) then rune_space else rune_X.

Section Drawing.

(** [Box.Draw] paints the border and the background of the box; it is
    given the box and the screen, and returns the screen. *)
Variable BoxDraw : Box -> tcell.Screen -> tcell.Screen.

(** [Print(screen, text, x, y, maxWidth, align, color)] prints a text and
    returns the number of columns it has used. *)
Variable Print :
  tcell.Screen -> string -> int -> int -> int -> Align -> tcell.Color ->
  tcell.Screen * int.

(** [Draw] has a pointer receiver: it returns the widget next to the
    screen. *)
Definition Draw (c : Checkbox) (screen : tcell.Screen)
    : Checkbox * tcell.Screen :=
  let screen := BoxDraw (Box_ c) screen in
  (* Prepare *)
  let '(x, y, rightLimit, height) := prepare (Box_ c) in
  if (height <? 1) || (rightLimit <=? x) then (c, screen)
  else
    (* Draw label. *)
    let '(screen, n) :=
      Print screen (label c) x y (sub rightLimit x) AlignLeft (labelColor c) in
    let x := add x n in
    (* Draw checkbox. *)
    let screen := tcell.SetContent x y (checkedRune c) [] (fieldStyle c) screen in
    (* Hide cursor. *)
    let screen :=
      if HasFocus (focus (Box_ c)) then tcell.HideCursor screen else screen in
    (c, screen).

(** The screen on which the label has been printed, and the width the
    printer reports, when [Draw] gets that far. *)
Definition labelled (c : Checkbox) (screen : tcell.Screen)
    : tcell.Screen * int :=
  let '(x, y, rightLimit, _) := prepare (Box_ c) in
  Print (BoxDraw (Box_ c) screen) (label c) x y (sub rightLimit x)
        AlignLeft (labelColor c).

(** The column and the row of the toggle, given the width of the label. *)
Definition toggleColumn (c : Checkbox) (n : int) : int :=
  let '(x, _, _, _) := prepare (Box_ c) in add x n.

Definition toggleRow (c : Checkbox) : int :=
  let '(_, y, _, _) := prepare (Box_ c) in y.

End Drawing.

(** *** Collaborators that repaint

    A list of cell writes, applied in order through [SetContent]. *)
Record CellWrite := mkCellWrite {
  wx : int;
  wy : int;
  wcell : tcell.Cell
}.

Definition applyWrite (s : tcell.Screen) (w : CellWrite) : tcell.Screen :=
  tcell.SetContent (wx w) (wy w) (tcell.mainc (wcell w)) (tcell.combc (wcell w))
                   (tcell.style (wcell w)) s.

Definition writeAll (W : list CellWrite) (s : tcell.Screen) : tcell.Screen :=
  fold_left applyWrite W s.

(** The last cell that a list of writes puts at a position, if any. *)
Fixpoint lastWrite (W : list CellWrite) (k : Z * Z) (acc : option tcell.Cell)
    : option tcell.Cell :=
  match W with
  | [] => acc
  | w :: W =>
      lastWrite W k (if decide ((wx w, wy w) = k) then Some (wcell w) else acc)
  end.

(** [Box.Draw] repaints when what it does to a screen is a list of writes
    fixed by the box; the label printer repaints when, on a screen that
    [Box.Draw] has just painted, it makes writes and reports a width that
    are fixed by the widget. *)
Definition boxRepaints
    (BoxDraw : Box -> tcell.Screen -> tcell.Screen) (c : Checkbox) : Prop :=
  exists WB, forall s, BoxDraw (Box_ c) s = writeAll WB s.

Definition labelRepaints
    (BoxDraw : Box -> tcell.Screen -> tcell.Screen)
    (Print : tcell.Screen -> string -> int -> int -> int -> Align ->
             tcell.Color -> tcell.Screen * int)
    (c : Checkbox) : Prop :=
  exists WL n, forall s,
    labelled BoxDraw Print c s = (writeAll WL (BoxDraw (Box_ c) s), n).

(** ** InputHandler (checkbox.go, lines 156-175) *)

(** One invocation of a callback by the widget: the closure called and the
    argument it was given. *)
Inductive Call :=
| CallChanged (f : Func) (checked : bool)
| CallDone (f : Func) (key : tcell.Key).

Definition isChanged (k : Call) : bool :=
  match k with CallChanged _ _ => true | CallDone _ _ => false end.

(** The events that toggle: Enter, and the rune [' ']. *)
Definition toggles (event : tcell.EventKey) : bool :=
  match tcell.Key_ event with
  | tcell.KeyEnter => true
  | tcell.KeyRune => tcell.Rune event =? rune_space
  | _ => false
  end.

Section Input.

(** The state of the application around the widget. *)
Context {App : Type}.

(** What the closures of the program do when called. A callback runs
    inline and holds a pointer to the widget: it sees the widget as it is
    at the call, and may change it (through the setters) as well as the
    application's own state. *)
Variable callChanged : Func -> bool -> Checkbox -> App -> Checkbox * App.
Variable callDone : Func -> tcell.Key -> Checkbox -> App -> Checkbox * App.

Record World := mkWorld {
  widget : Checkbox;
  app : App;
  calls : list Call
}.

(** [c.changed(arg)] and [c.done(arg)]. *)
Definition invokeChanged (f : Func) (arg : bool) (w : World) : World :=
  let '(c, a) := callChanged f arg (widget w) (app w) in
  mkWorld c a (calls w ++ [CallChanged f arg]).

Definition invokeDone (f : Func) (arg : tcell.Key) (w : World) : World :=
  let '(c, a) := callDone f arg (widget w) (app w) in
  mkWorld c a (calls w ++ [CallDone f arg]).

Definition updWidget (f : Checkbox -> Checkbox) (w : World) : World :=
  mkWorld (f (widget w)) (app w) (calls w).

(** The closure that [InputHandler] returns, applied to an event.
    [setFocus] is never used by it and is left out. *)
Definition InputHandler (event : tcell.EventKey) (w : World) : World :=
  let key := tcell.Key_ event in
  match key with
  | tcell.KeyRune | tcell.KeyEnter =>
      if (match key with tcell.KeyRune => true | _ => false end)
         && negb (tcell.Rune event =? rune_space)
      then w
      else
        let w := updWidget (fun c => set_checked (negb (checked c)) c) w in
        match changed (widget w) with
        | Some f => invokeChanged f (checked (widget w)) w
        | None => w
        end
  | tcell.KeyTab | tcell.KeyBacktab | tcell.KeyEscape =>
      match done (widget w) with
      | Some f => invokeDone f key w
      | None => w
      end
  | tcell.KeyOther _ => w
  end.

(** A sequence of events, handled one after the other. *)
Definition handleAll (events : list tcell.EventKey) (w : World) : World :=
  fold_left (fun w event => InputHandler event w) events w.

(** The number of [changed] invocations recorded in a world. *)
Definition changedCount (w : World) : nat :=
  length (List.filter isChanged (calls w)).

(** A closure observes when calling it leaves the widget as it was. *)
Definition observes (f : Func) : Prop :=
  forall arg c a, fst (callChanged f arg c a) = c.

End Input.

Arguments World : clear implicits.

(** ** Sample collaborators and programs

    Modelled from the spec: a [Box.Draw] and a [Print] of the kind the
    specification describes (the base paints its rectangle with the
    background colour; the printer lays a text out from the left, clipped
    to [maxWidth], and returns the number of columns used). They are used
    to run [Draw] on concrete inputs. *)

Definition rowWrites (y x0 : int) (n : nat) (cell : tcell.Cell) : list CellWrite :=
  map (fun i => mkCellWrite (x0 + Z.of_nat i) y cell) (seq 0 n).

Definition sampleBoxDraw (b : Box) (s : tcell.Screen) : tcell.Screen :=
  let cell :=
    tcell.mkCell rune_space []
      (tcell.Background (backgroundColor b) tcell.StyleDefault) in
  writeAll
    (flat_map (fun j => rowWrites (y b + Z.of_nat j) (x b) (Z.to_nat (width b)) cell)
              (seq 0 (Z.to_nat (height b))))
    s.

Fixpoint textWrites (runes : list rune) (x y : int) (color : tcell.Color)
    : list CellWrite :=
  match runes with
  | [] => []
  | r :: runes =>
      mkCellWrite x y (tcell.mkCell r [] (tcell.Foreground color tcell.StyleDefault))
      :: textWrites runes (x + 1) y color
  end.

Definition runesOf (text : string) : list rune :=
  map (fun a => Z.of_nat (Ascii.nat_of_ascii a)) (String.list_ascii_of_string text).

Definition samplePrint (s : tcell.Screen) (text : string) (x y maxWidth : int)
    (align : Align) (color : tcell.Color) : tcell.Screen * int :=
  let shown := take (Z.to_nat maxWidth) (runesOf text) in
  (writeAll (textWrites shown x y color) s, Z.of_nat (length shown)).

(** A program whose closures number 0 count their calls, whose other
    [changed] closures call [SetChecked(false)], and whose other [done]
    closures call [SetChecked(true)]. *)
Definition sampleChanged (f : Func) (arg : bool) (c : Checkbox) (a : nat)
    : Checkbox * nat :=
  match f with
  | O => (c, S a)
  | _ => (SetChecked false c, a)
  end.

Definition sampleDone (f : Func) (key : tcell.Key) (c : Checkbox) (a : nat)
    : Checkbox * nat :=
  match f with
  | O => (c, S a)
  | _ => (SetChecked true c, a)
  end.

Definition sampleBox (x y width height : int) (border focused : bool) : Box :=
  mkBox x y width height border 0 (mkFocusable focused).

Definition sampleCheckbox (b : Box) (label : string) (checked : bool)
    (changed done : option Func) : Checkbox :=
  mkCheckbox b checked label 11 12 15 changed done.

(** The worlds of the scenarios: an unchecked checkbox labelled "Accept",
    with the given closures installed, in an application that has counted
    nothing yet. *)
Definition sampleWorld (changed done : option Func) : World nat :=
  mkWorld (sampleCheckbox (sampleBox 0 0 10 1 false true) "Accept" false
                          changed done)
          0%nat [].

Definition emptyScreen : tcell.Screen := tcell.mkScreen ∅ (Some (0, 0)) [].

Definition keyEnter : tcell.EventKey := tcell.NewEventKey tcell.KeyEnter 0.

Definition keySpace : tcell.EventKey := tcell.NewEventKey tcell.KeyRune 32.

Definition keyTab : tcell.EventKey := tcell.NewEventKey tcell.KeyTab 0.

(** ** Further definitions: the constructor, event counts, geometry *)

Section Constructor.

(** [NewBox()] and the three colours of package [tcell] that the
    constructor names are declared outside checkbox.go. *)
Variable NewBox : Box.
Variables ColorYellow ColorBlue ColorWhite : tcell.Color.


End Constructor.

(** The events that end the input: Tab, Backtab and Escape. *)
Definition finishes (event : tcell.EventKey) : bool :=
  match tcell.Key_ event with
  | tcell.KeyTab | tcell.KeyBacktab | tcell.KeyEscape => true
  | _ => false
  end.

Definition countToggles (events : list tcell.EventKey) : nat :=
  length (List.filter toggles events).

Definition countFinishes (events : list tcell.EventKey) : nat :=
  length (List.filter finishes events).

Definition isDone (k : Call) : bool :=
  match k with CallDone _ _ => true | CallChanged _ _ => false end.

(** The number of [done] invocations recorded in a world. *)
Definition doneCount {App : Type} (w : World App) : nat :=
  length (List.filter isDone (calls w)).

(** A [done] closure observes when calling it leaves the widget as it was. *)
Definition observesDone {App : Type}
    (callDone : Func -> tcell.Key -> Checkbox -> App -> Checkbox * App)
    (f : Func) : Prop :=
  forall arg c a, fst (callDone f arg c a) = c.

(** The calls that one event adds to the record. *)
Definition callsOf (event : tcell.EventKey) (c : Checkbox) : list Call :=
  if toggles event then
    match changed c with
    | Some f => [CallChanged f (negb (checked c))]
    | None => []
    end
  else if finishes event then
    match done c with
    | Some f => [CallDone f (tcell.Key_ event)]
    | None => []
    end
  else [].


Definition maxWidth (c : Checkbox) : int :=
  let '(x, _, rightLimit, _) := prepare (Box_ c) in sub rightLimit x.

(** A box whose position and size are far from the limits of [int], as
    those of a box on a terminal are: no sum in [Draw] wraps around. *)
Definition inRange (b : Box) : Prop :=
  - 2 ^ 61 <= x b <= 2 ^ 61 /\ - 2 ^ 61 <= y b <= 2 ^ 61
  /\ - 2 ^ 61 <= width b <= 2 ^ 61 /\ - 2 ^ 61 <= height b <= 2 ^ 61.

(** * Arithmetic of [int] *)

Lemma wrap_spec (z : Z) : exists k, wrap z = z + k * 2 ^ 64.
Proof.
  exists (- ((z + 2 ^ 63) `div` 2 ^ 64)). unfold wrap.
  pose proof (Z.div_mod (z + 2 ^ 63) (2 ^ 64)) as E. lia.
Qed.

Lemma wrap_shift (z k : Z) : wrap (z + k * 2 ^ 64) = wrap z.
Proof.
  unfold wrap.
  replace (z + k * 2 ^ 64 + 2 ^ 63) with (z + 2 ^ 63 + k * 2 ^ 64) by lia.
  by rewrite Z_mod_plus_full.
Qed.

Lemma wrap_in_int (z : Z) : in_int (wrap z).
Proof.
  unfold in_int, wrap.
  pose proof (Z.mod_pos_bound (z + 2 ^ 63) (2 ^ 64)). lia.
Qed.

Lemma wrap_small (z : Z) : in_int z -> wrap z = z.
Proof.
  unfold in_int, wrap. intros H. rewrite Z.mod_small; lia.
Qed.

Lemma wrap_wrap (z : Z) : wrap (wrap z) = wrap z.
Proof. apply wrap_small, wrap_in_int. Qed.

(** [x + (r - x)] is [r] again, whatever wrapped on the way. *)
Lemma add_sub_cancel (x r : int) : add x (sub r x) = wrap r.
Proof.
  unfold add, sub. destruct (wrap_spec (r - x)) as [k ->].
  replace (x + (r - x + k * 2 ^ 64)) with (r + k * 2 ^ 64) by lia.
  apply wrap_shift.
Qed.

(** The right limit that [prepare] returns is a value of [int]. *)
Lemma prepare_in_int (b : Box) (x' y' rightLimit height' : int) :
  prepare b = (x', y', rightLimit, height') -> in_int rightLimit.
Proof.
  unfold prepare. destruct (border b); intros [= <- <- <- <-];
    apply wrap_in_int.
Qed.

(** * Writes on a screen *)

Lemma cells_writeAll (W : list CellWrite) (s : tcell.Screen) (k : Z * Z) :
  tcell.cells (writeAll W s) !! k = lastWrite W k (tcell.cells s !! k).
Proof.
  revert s. induction W as [|w W IH]; intros s; [done|].
  cbn [writeAll fold_left lastWrite]. fold (writeAll W (applyWrite s w)).
  rewrite IH. f_equal. destruct w as [wx0 wy0 [m cs st]]. cbn.
  rewrite lookup_insert. reflexivity.
Qed.

Lemma cursor_writeAll (W : list CellWrite) (s : tcell.Screen) :
  tcell.cursor (writeAll W s) = tcell.cursor s.
Proof.
  revert s. induction W as [|w W IH]; intros s; [done|].
  cbn [writeAll fold_left]. fold (writeAll W (applyWrite s w)). by rewrite IH.
Qed.

Lemma writeAll_app (W1 W2 : list CellWrite) (s : tcell.Screen) :
  writeAll (W1 ++ W2) s = writeAll W2 (writeAll W1 s).
Proof. unfold writeAll. apply fold_left_app. Qed.

(** A list of writes either never touches a position, or leaves there a
    cell that does not depend on what the screen had. *)
Lemma lastWrite_cases (W : list CellWrite) (k : Z * Z) :
  (forall a, lastWrite W k a = a) \/ (exists v, forall a, lastWrite W k a = Some v).
Proof.
  induction W as [|w W IH]; cbn [lastWrite]; [by left|].
  case_decide as Hk; [|exact IH].
  right. destruct IH as [Hid|[v Hv]].
  - exists (wcell w). intros _. apply Hid.
  - exists v. intros _. apply Hv.
Qed.

Lemma lastWrite_absorb (W : list CellWrite) (k : Z * Z) (a : option tcell.Cell) :
  lastWrite W k (lastWrite W k a) = lastWrite W k a.
Proof.
  destruct (lastWrite_cases W k) as [Hid|[v Hv]].
  - by rewrite !Hid.
  - by rewrite !Hv.
Qed.

Lemma writeAll_twice (W : list CellWrite) (s : tcell.Screen) :
  tcell.cells (writeAll W (writeAll W s)) = tcell.cells (writeAll W s).
Proof.
  apply map_eq. intros k. rewrite !cells_writeAll. apply lastWrite_absorb.
Qed.

(** * Draw *)

(** Without a border the rectangle is the box's own: the label may use
    [width] columns (as an [int]). *)
Lemma prepare_unbordered (x0 y0 w h : int) (bg : tcell.Color) (f : Focusable) :
  prepare (mkBox x0 y0 w h false bg f) = (x0, y0, add x0 w, h)
  /\ sub (add x0 w) x0 = wrap w.
Proof.
  split; [done|]. unfold sub, add.
  destruct (wrap_spec (x0 + w)) as [k ->].
  replace (x0 + w + k * 2 ^ 64 - x0) with (w + k * 2 ^ 64) by lia.
  apply wrap_shift.
Qed.

(** C1 (the code departs from the claim). With a border, [Draw] moves [x]
    and [y] in by one and takes two off the height, but it takes two off
    [rightLimit], not off the width: the width left between the new [x] and
    [rightLimit] is [width - 3] (as an [int]), where the claim says
    [width - 2]. *)
Theorem prepare_bordered (x0 y0 w h : int) (bg : tcell.Color) (f : Focusable) :
  prepare (mkBox x0 y0 w h true bg f)
  = (add x0 1, add y0 1, sub (add x0 w) 2, sub h 2)
  /\ sub (sub (add x0 w) 2) (add x0 1) = wrap (w - 3).
Proof.
  split; [done|]. unfold sub, add.
  destruct (wrap_spec (x0 + w)) as [k1 ->].
  destruct (wrap_spec (x0 + w + k1 * 2 ^ 64 - 2)) as [k2 ->].
  destruct (wrap_spec (x0 + 1)) as [k3 ->].
  replace (x0 + w + k1 * 2 ^ 64 - 2 + k2 * 2 ^ 64 - (x0 + 1 + k3 * 2 ^ 64))
    with (w - 3 + (k1 + k2 - k3) * 2 ^ 64) by lia.
  apply wrap_shift.
Qed.

(** The same on a bordered box 10 wide and 3 high at the origin: the label
    gets 7 columns, and [10 - 2] is 8. *)
Lemma prepare_bordered_10 :
  prepare (sampleBox 0 0 10 3 true false) = (1, 1, 8, 1)
  /\ sub 8 1 = 7 /\ 7 <> width (sampleBox 0 0 10 3 true false) - 2.
Proof. by vm_compute. Qed.

Section DrawFacts.

Variable BoxDraw : Box -> tcell.Screen -> tcell.Screen.
Variable Print :
  tcell.Screen -> string -> int -> int -> int -> Align -> tcell.Color ->
  tcell.Screen * int.


(** The style of the toggle, spelled out. *)
Lemma fieldStyle_spec (c : Checkbox) :
  fieldStyle c =
    if HasFocus (focus (Box_ c))
    then tcell.mkStyle (fieldBackgroundColor c) (fieldTextColor c)
    else tcell.mkStyle (fieldTextColor c) (fieldBackgroundColor c).
Proof. unfold fieldStyle. by destruct (HasFocus _). Qed.

Lemma checkedRune_spec (c : Checkbox) :
  checkedRune c = if checked c then rune_X else rune_space.
Proof. unfold checkedRune. by destruct (checked c). Qed.

(** [Draw] when the rectangle is large enough. *)
Lemma Draw_large (c : Checkbox) (s s1 : tcell.Screen)
    (x' y' rightLimit height' n : int) :
  prepare (Box_ c) = (x', y', rightLimit, height') ->
  1 <= height' -> x' < rightLimit ->
  Print (BoxDraw (Box_ c) s) (label c) x' y' (sub rightLimit x') AlignLeft
        (labelColor c) = (s1, n) ->
  Draw BoxDraw Print c s =
    (c, let s2 := tcell.SetContent (add x' n) y' (checkedRune c) []
                                   (fieldStyle c) s1 in
        if HasFocus (focus (Box_ c)) then tcell.HideCursor s2 else s2).
Proof.
  intros Hp Hh Hr HP. unfold Draw. rewrite Hp.
  destruct (height' <? 1) eqn:E1; [lia|].
  destruct (rightLimit <=? x') eqn:E2; [lia|].
  cbn [orb]. by rewrite HP.
Qed.

(** C5. When [Draw] gets past its guard, it makes one [SetContent] call
    after the label has been printed, at the column that the label's
    width leads to and on the label's row: its rune is ['X'] when
    [checked] and a space otherwise; its style has [fieldTextColor] as
    foreground and [fieldBackgroundColor] as background, and the two are
    exchanged when the widget has focus. The only call after it is
    [HideCursor], made when the widget has focus. *)
Theorem Draw_toggle_cell (c : Checkbox) (s s1 : tcell.Screen)
    (x' y' rightLimit height' n : int) :
  prepare (Box_ c) = (x', y', rightLimit, height') ->
  1 <= height' -> x' < rightLimit ->
  Print (BoxDraw (Box_ c) s) (label c) x' y' (sub rightLimit x') AlignLeft
        (labelColor c) = (s1, n) ->
  let glyph := if checked c then rune_X else rune_space in
  let style :=
    if HasFocus (focus (Box_ c))
    then tcell.mkStyle (fieldBackgroundColor c) (fieldTextColor c)
    else tcell.mkStyle (fieldTextColor c) (fieldBackgroundColor c) in
  tcell.history (snd (Draw BoxDraw Print c s)) =
    tcell.history s1
    ++ tcell.CallSetContent (add x' n) y' glyph [] style
       :: (if HasFocus (focus (Box_ c)) then [tcell.CallHideCursor] else [])
  /\ tcell.cells (snd (Draw BoxDraw Print c s)) =
       <[(add x' n, y') := tcell.mkCell glyph [] style]> (tcell.cells s1).
Proof.
  intros Hp Hh Hr HP glyph style.
  rewrite (Draw_large c s s1 _ _ _ _ n Hp Hh Hr HP).
  subst glyph style. rewrite <- fieldStyle_spec, <- checkedRune_spec.
  destruct (HasFocus (focus (Box_ c))); cbn; [|done].
  by rewrite <- app_assoc.
Qed.

(** C10. When the printer reports that the label has used the whole width
    between [x] and [rightLimit], the toggle is written at column
    [rightLimit] itself, which is not one of the columns
    [x .. rightLimit - 1] of the rectangle that [Draw] prepared; on a box
    without border that column is [x + width], the first one to the right
    of the box. *)
Theorem Draw_toggle_at_rightLimit (c : Checkbox) (s s1 : tcell.Screen)
    (x' y' rightLimit height' : int) :
  prepare (Box_ c) = (x', y', rightLimit, height') ->
  1 <= height' -> x' < rightLimit ->
  Print (BoxDraw (Box_ c) s) (label c) x' y' (sub rightLimit x') AlignLeft
        (labelColor c) = (s1, sub rightLimit x') ->
  tcell.history (snd (Draw BoxDraw Print c s)) =
    tcell.history s1
    ++ tcell.CallSetContent rightLimit y' (checkedRune c) [] (fieldStyle c)
       :: (if HasFocus (focus (Box_ c)) then [tcell.CallHideCursor] else [])
  /\ ~ (x' <= rightLimit < rightLimit)
  /\ (border (Box_ c) = false ->
      rightLimit = add (x (Box_ c)) (width (Box_ c))).
Proof.
  intros Hp Hh Hr HP. split; [|split; [lia|]]; cycle 1.
  { intros Hb. unfold prepare in Hp. rewrite Hb in Hp. congruence. }
  rewrite (Draw_large c s s1 _ _ _ _ _ Hp Hh Hr HP).
  rewrite add_sub_cancel, (wrap_small rightLimit)
    by (eapply prepare_in_int; exact Hp).
  destruct (HasFocus (focus (Box_ c))); cbn; [|done].
  by rewrite <- app_assoc.
Qed.

End DrawFacts.

Section DrawState.

Variable BoxDraw : Box -> tcell.Screen -> tcell.Screen.
Variable Print :
  tcell.Screen -> string -> int -> int -> int -> Align -> tcell.Color ->
  tcell.Screen * int.

(** [Draw], with its guard as [tooSmall] and its label as [labelled]. *)
Lemma Draw_unfold (c : Checkbox) (s : tcell.Screen) :
  Draw BoxDraw Print c s =
    if tooSmall (Box_ c) then (c, BoxDraw (Box_ c) s)
    else
      let '(s1, n) := labelled BoxDraw Print c s in
      let s2 := tcell.SetContent (toggleColumn c n) (toggleRow c)
                                 (checkedRune c) [] (fieldStyle c) s1 in
      (c, if HasFocus (focus (Box_ c)) then tcell.HideCursor s2 else s2).
Proof.
  unfold Draw, tooSmall, labelled, toggleColumn, toggleRow.
  destruct (prepare (Box_ c)) as [[[x' y'] rl] h'].
  destruct ((h' <? 1) || (rl <=? x')); [done|].
  by destruct (Print _ _ _ _ _ _ _).
Qed.


(** What [Draw] does to a screen, when its collaborators repaint, is a
    list of writes followed or not by [HideCursor]. *)
Lemma Draw_repaints (c : Checkbox) :
  boxRepaints BoxDraw c -> labelRepaints BoxDraw Print c ->
  exists (W : list CellWrite) (hide : bool), forall s,
    Draw BoxDraw Print c s =
      (c, if hide then tcell.HideCursor (writeAll W s) else writeAll W s).
Proof.
  intros [WB HB] [WL [n HL]].
  destruct (tooSmall (Box_ c)) eqn:Hsmall.
  - exists WB, false. intros s. by rewrite Draw_unfold, Hsmall, HB.
  - exists (WB ++ WL ++
            [mkCellWrite (toggleColumn c n) (toggleRow c)
               (tcell.mkCell (checkedRune c) [] (fieldStyle c))]),
           (HasFocus (focus (Box_ c))).
    intros s. rewrite Draw_unfold, Hsmall, HL, HB.
    by rewrite !writeAll_app.
Qed.

(** C8. [Draw] returns the widget it was given, every field as it was;
    and when [Box.Draw] and the label printer repaint, a second [Draw]
    on the screen that the first one produced leaves the cells and the
    cursor as the first one left them. *)
Theorem Draw_pure_idempotent (c : Checkbox) (s : tcell.Screen) :
  boxRepaints BoxDraw c -> labelRepaints BoxDraw Print c ->
  fst (Draw BoxDraw Print c s) = c
  /\ tcell.content
       (snd (Draw BoxDraw Print (fst (Draw BoxDraw Print c s))
                                (snd (Draw BoxDraw Print c s))))
     = tcell.content (snd (Draw BoxDraw Print c s)).
Proof.
  intros HB HL. destruct (Draw_repaints c HB HL) as [W [hide HD]].
  rewrite (HD s). cbn [fst snd]. rewrite HD. cbn [snd]. split; [done|].
  unfold tcell.content. destruct hide; cbn [tcell.HideCursor tcell.cells tcell.cursor].
  - f_equal. apply map_eq. intros k. rewrite !cells_writeAll. cbn.
    rewrite cells_writeAll. apply lastWrite_absorb.
  - f_equal; [apply writeAll_twice|]. by rewrite !cursor_writeAll.
Qed.

(** [Draw] leaves the widget alone whatever its collaborators do. *)
Lemma Draw_keeps_widget (c : Checkbox) (s : tcell.Screen) :
  fst (Draw BoxDraw Print c s) = c.
Proof.
  rewrite Draw_unfold. destruct (tooSmall (Box_ c)); [done|].
  by destruct (labelled BoxDraw Print c s).
Qed.

End DrawState.

(** * InputHandler *)

Section InputFacts.

Context {App : Type}.
Variable callChanged : Func -> bool -> Checkbox -> App -> Checkbox * App.
Variable callDone : Func -> tcell.Key -> Checkbox -> App -> Checkbox * App.

Lemma toggles_spec (event : tcell.EventKey) :
  toggles event = true <->
  tcell.Key_ event = tcell.KeyEnter
  \/ (tcell.Key_ event = tcell.KeyRune /\ tcell.Rune event = rune_space).
Proof.
  unfold toggles. destruct (tcell.Key_ event); split;
    try (intros [?|[? ?]]; discriminate); try discriminate; try tauto.
  - intros H. right. split; [done|]. by apply Z.eqb_eq.
  - intros [?|[_ ->]]; [discriminate|done].
Qed.

(** An event that toggles: the flag is negated first, and the callback,
    if there is one, is then called on the widget so changed. *)
Lemma InputHandler_toggles (event : tcell.EventKey) (w : World App) :
  toggles event = true ->
  InputHandler callChanged callDone event w =
    let w1 := updWidget (fun c => set_checked (negb (checked c)) c) w in
    match changed (widget w) with
    | Some f => invokeChanged callChanged f (negb (checked (widget w))) w1
    | None => w1
    end.
Proof.
  unfold toggles, InputHandler.
  destruct (tcell.Key_ event); try discriminate.
  - intros ->. done.
  - done.
Qed.

(** C2. On Enter, and on the rune [' '], the handler negates [checked];
    if [changed] is set it then calls it, once, with the negated value:
    the widget that the callback is given already has the negated flag,
    and the world after the event is the one the callback leaves, with
    this one call added to the record. If [changed] is not set, the world
    after the event is the old one with the flag negated and no call. *)
Theorem InputHandler_toggle (event : tcell.EventKey) (w : World App) :
  tcell.Key_ event = tcell.KeyEnter
  \/ (tcell.Key_ event = tcell.KeyRune /\ tcell.Rune event = rune_space) ->
  let flipped := set_checked (negb (checked (widget w))) (widget w) in
  checked flipped = negb (checked (widget w))
  /\ InputHandler callChanged callDone event w =
       match changed (widget w) with
       | Some f =>
           let r := callChanged f (negb (checked (widget w))) flipped (app w) in
           mkWorld (fst r) (snd r)
                   (calls w ++ [CallChanged f (negb (checked (widget w)))])
       | None => mkWorld flipped (app w) (calls w)
       end.
Proof.
  intros H flipped. split; [done|].
  rewrite InputHandler_toggles by (by apply toggles_spec).
  cbn zeta. destruct (changed (widget w)) as [f|]; [|done].
  unfold invokeChanged, updWidget. cbn [widget app calls]. fold flipped.
  by destruct (callChanged f _ flipped (app w)).
Qed.

Lemma InputHandler_finishes (event : tcell.EventKey) (w : World App) :
  tcell.Key_ event = tcell.KeyTab \/ tcell.Key_ event = tcell.KeyBacktab
  \/ tcell.Key_ event = tcell.KeyEscape ->
  InputHandler callChanged callDone event w =
    match done (widget w) with
    | Some f => invokeDone callDone f (tcell.Key_ event) w
    | None => w
    end.
Proof. unfold InputHandler. by intros [H|[H|H]]; rewrite H. Qed.

(** C4, amended. On Tab, Backtab and Escape the handler itself writes no
    field: if [done] is set it calls it, once, with the key of the event,
    on the widget as it was before the event, and the world after the
    event is the one the callback leaves, with this one call added to the
    record; so the widget ([checked] included) is unchanged after the
    event whenever the callback leaves it alone. If [done] is not set the
    world is unchanged. *)
Theorem InputHandler_finish (event : tcell.EventKey) (w : World App) :
  tcell.Key_ event = tcell.KeyTab \/ tcell.Key_ event = tcell.KeyBacktab
  \/ tcell.Key_ event = tcell.KeyEscape ->
  InputHandler callChanged callDone event w =
    match done (widget w) with
    | Some f =>
        let r := callDone f (tcell.Key_ event) (widget w) (app w) in
        mkWorld (fst r) (snd r) (calls w ++ [CallDone f (tcell.Key_ event)])
    | None => w
    end
  /\ (forall f, done (widget w) = Some f ->
        fst (callDone f (tcell.Key_ event) (widget w) (app w)) = widget w ->
        widget (InputHandler callChanged callDone event w) = widget w).
Proof.
  intros H. rewrite (InputHandler_finishes event w H). unfold invokeDone.
  split.
  - destruct (done (widget w)) as [f|]; [|done].
    by destruct (callDone f _ (widget w) (app w)).
  - intros f -> Hfst. by destruct (callDone f _ (widget w) (app w)).
Qed.

(** C9. A rune other than [' '], and a key that is none of rune, Enter,
    Tab, Backtab and Escape, leave the world as it was: every field of
    the widget, the application, and the record of the calls. *)
Theorem InputHandler_ignores (event : tcell.EventKey) (w : World App) :
  (tcell.Key_ event = tcell.KeyRune /\ tcell.Rune event <> rune_space)
  \/ (tcell.Key_ event <> tcell.KeyRune /\ tcell.Key_ event <> tcell.KeyEnter
      /\ tcell.Key_ event <> tcell.KeyTab
      /\ tcell.Key_ event <> tcell.KeyBacktab
      /\ tcell.Key_ event <> tcell.KeyEscape) ->
  InputHandler callChanged callDone event w = w.
Proof.
  unfold InputHandler. intros [[HK HR]|(H1 & H2 & H3 & H4 & H5)].
  - rewrite HK. apply Z.eqb_neq in HR. by rewrite HR.
  - by destruct (tcell.Key_ event).
Qed.

(** *** Sequences of toggles *)

Lemma handleAll_snoc (events : list tcell.EventKey) (event : tcell.EventKey)
    (w : World App) :
  handleAll callChanged callDone (events ++ [event]) w =
    InputHandler callChanged callDone event
      (handleAll callChanged callDone events w).
Proof. unfold handleAll. by rewrite fold_left_app. Qed.



End InputFacts.

Section Sequences.

Context {App : Type}.
Variable callChanged : Func -> bool -> Checkbox -> App -> Checkbox * App.
Variable callDone : Func -> tcell.Key -> Checkbox -> App -> Checkbox * App.


End Sequences.

(** * The theorems on concrete inputs *)

Lemma sampleBoxDraw_repaints (c : Checkbox) : boxRepaints sampleBoxDraw c.
Proof. unfold boxRepaints, sampleBoxDraw. eexists. intros s. reflexivity. Qed.

Lemma samplePrint_repaints (c : Checkbox) :
  labelRepaints sampleBoxDraw samplePrint c.
Proof.
  unfold labelRepaints, labelled, samplePrint.
  destruct (prepare (Box_ c)) as [[[x' y'] rl] h'].
  eexists _, _. intros s. reflexivity.
Qed.


(** The scenario of the specification: a focused, unchecked checkbox with
    the label "X" in a region 10 wide and 1 high, without border, at the
    origin. *)
Lemma Draw_toggle_cell_witness :
  let c := sampleCheckbox (sampleBox 0 0 10 1 false true) "X" false None None in
  let s1 := fst (samplePrint (sampleBoxDraw (Box_ c) emptyScreen) "X" 0 0 10
                             AlignLeft 11) in
  tcell.history (snd (Draw sampleBoxDraw samplePrint c emptyScreen)) =
    tcell.history s1
    ++ [tcell.CallSetContent 1 0 32 [] (tcell.mkStyle 12 15);
        tcell.CallHideCursor]
  /\ tcell.cells (snd (Draw sampleBoxDraw samplePrint c emptyScreen)) =
       <[(1, 0) := tcell.mkCell 32 [] (tcell.mkStyle 12 15)]> (tcell.cells s1).
Proof.
  intros c s1.
  apply (Draw_toggle_cell sampleBoxDraw samplePrint c emptyScreen s1 0 0 10 1 1);
    [reflexivity | lia | lia | reflexivity].
Defined.

(** A box 1 wide without border whose label fills it: the toggle goes to
    column 1, outside the columns [0 .. 0] of the box. *)
Lemma Draw_toggle_at_rightLimit_witness :
  let c := sampleCheckbox (sampleBox 0 0 1 1 false false) "A" true None None in
  let s1 := fst (samplePrint (sampleBoxDraw (Box_ c) emptyScreen) "A" 0 0 1
                             AlignLeft 11) in
  samplePrint (sampleBoxDraw (Box_ c) emptyScreen) "A" 0 0 (sub 1 0) AlignLeft 11
    = (s1, sub 1 0)
  /\ (tcell.history (snd (Draw sampleBoxDraw samplePrint c emptyScreen)) =
        tcell.history s1
        ++ [tcell.CallSetContent 1 0 (checkedRune c) [] (fieldStyle c)]
      /\ ~ (0 <= 1 < 1)
      /\ (border (Box_ c) = false -> 1 = add (x (Box_ c)) (width (Box_ c))))
  /\ ~ (x (Box_ c) <= 1 < x (Box_ c) + width (Box_ c)).
Proof.
  intros c s1. split; [reflexivity|]. split.
  - apply (Draw_toggle_at_rightLimit sampleBoxDraw samplePrint c emptyScreen
             s1 0 0 1 1); [reflexivity | lia | lia | reflexivity].
  - cbn. lia.
Defined.

Lemma Draw_pure_idempotent_witness :
  let c := sampleCheckbox (sampleBox 0 0 10 1 false true) "X" false None None in
  let s1 := snd (Draw sampleBoxDraw samplePrint c emptyScreen) in
  fst (Draw sampleBoxDraw samplePrint c emptyScreen) = c
  /\ tcell.content
       (snd (Draw sampleBoxDraw samplePrint
               (fst (Draw sampleBoxDraw samplePrint c emptyScreen)) s1))
     = tcell.content s1.
Proof.
  intros c s1.
  apply (Draw_pure_idempotent sampleBoxDraw samplePrint c emptyScreen
           (sampleBoxDraw_repaints c) (samplePrint_repaints c)).
Defined.

Lemma InputHandler_toggle_witness :
  let w := sampleWorld (Some 0%nat) (Some 0%nat) in
  InputHandler sampleChanged sampleDone keySpace w =
    mkWorld (set_checked true (widget w)) 1%nat [CallChanged 0%nat true].
Proof.
  intros w.
  apply (InputHandler_toggle sampleChanged sampleDone keySpace w).
  right. split; reflexivity.
Defined.

Lemma InputHandler_finish_witness :
  let w := sampleWorld (Some 0%nat) (Some 0%nat) in
  InputHandler sampleChanged sampleDone keyTab w =
    mkWorld (widget w) 1%nat [CallDone 0%nat tcell.KeyTab]
  /\ (forall f, done (widget w) = Some f ->
        fst (sampleDone f tcell.KeyTab (widget w) (app w)) = widget w ->
        widget (InputHandler sampleChanged sampleDone keyTab w) = widget w).
Proof.
  intros w.
  apply (InputHandler_finish sampleChanged sampleDone keyTab w).
  left. reflexivity.
Defined.

(** C4, as stated, fails: [done] closure 1 calls [SetChecked(true)]. With
    it installed on an unchecked checkbox, Tab calls it once with the key
    Tab, and [checked] is true after the event. *)
Lemma InputHandler_finish_counterexample :
  let w := sampleWorld None (Some 1%nat) in
  let w' := InputHandler sampleChanged sampleDone keyTab w in
  tcell.Key_ keyTab = tcell.KeyTab
  /\ calls w' = [CallDone 1%nat tcell.KeyTab]
  /\ checked (widget w) = false
  /\ checked (widget w') = true
  /\ checked (widget w') <> checked (widget w).
Proof. cbv zeta. repeat split. discriminate. Qed.

Lemma InputHandler_ignores_witness :
  let w := sampleWorld (Some 0%nat) (Some 0%nat) in
  InputHandler sampleChanged sampleDone (tcell.NewEventKey tcell.KeyRune 97) w = w
  /\ InputHandler sampleChanged sampleDone
       (tcell.NewEventKey (tcell.KeyOther 0) 0) w = w.
Proof.
  intros w. split.
  - apply (InputHandler_ignores sampleChanged sampleDone).
    left. split; [reflexivity | discriminate].
  - apply (InputHandler_ignores sampleChanged sampleDone).
    right. repeat split; discriminate.
Defined.

Lemma sampleChanged_observes : observes sampleChanged 0%nat.
Proof. intros arg c a. reflexivity. Qed.



(** * Further properties of the geometry of Draw *)

(** Linear arithmetic with the two bounds spelled out. *)
Ltac int_lia :=
  pose proof (eq_refl : 2 ^ 61 = 2305843009213693952);
  pose proof (eq_refl : 2 ^ 63 = 9223372036854775808);
  lia.

(** Without wrap-around, [prepare] is plain arithmetic. *)
Lemma prepare_inRange (b : Box) :
  inRange b ->
  prepare b =
    if border b
    then (x b + 1, y b + 1, x b + width b - 2, height b - 2)
    else (x b, y b, x b + width b, height b).
Proof.
  intros (Hx & Hy & Hw & Hh). unfold prepare, add, sub.
  assert (forall z, - 2 ^ 63 + 2 <= z < 2 ^ 63 -> wrap z = z) as Hs.
  { intros z Hz. apply wrap_small. unfold in_int. int_lia. }
  destruct (border b); [|by rewrite Hs by int_lia].
  rewrite (Hs (x b + width b)) by int_lia.
  by rewrite !Hs by int_lia.
Qed.

Lemma tooSmall_inRange (b : Box) :
  inRange b ->
  tooSmall b =
    if border b
    then (height b <? 3) || (width b <=? 3)
    else (height b <? 1) || (width b <=? 0).
Proof.
  intros Hr. unfold tooSmall. rewrite (prepare_inRange b Hr).
  destruct (border b).
  - f_equal.
    + destruct (height b - 2 <? 1) eqn:E1, (height b <? 3) eqn:E2; lia.
    + destruct (x b + width b - 2 <=? x b + 1) eqn:E1, (width b <=? 3) eqn:E2; lia.
  - f_equal.
    destruct (x b + width b <=? x b) eqn:E1, (width b <=? 0) eqn:E2; lia.
Qed.

Lemma maxWidth_inRange (c : Checkbox) :
  inRange (Box_ c) ->
  maxWidth c = if border (Box_ c) then width (Box_ c) - 3 else width (Box_ c).
Proof.
  intros Hr. unfold maxWidth. rewrite (prepare_inRange _ Hr).
  destruct Hr as (Hx & Hy & Hw & Hh).
  assert (forall z, - 2 ^ 63 + 2 <= z < 2 ^ 63 -> wrap z = z) as Hsm.
  { intros z Hz. apply wrap_small. unfold in_int. int_lia. }
  destruct (border (Box_ c)); unfold sub; rewrite Hsm by int_lia; int_lia.
Qed.

(** X1. On a box in range, the guard of [Draw] lets a checkbox without
    border through exactly when its height and its width are at least 1,
    and a bordered one exactly when its height is at least 3 and its width
    at least 4. *)
Theorem tooSmall_thresholds (b : Box) :
  inRange b ->
  (tooSmall b = false <->
   if border b then 3 <= height b /\ 4 <= width b
   else 1 <= height b /\ 1 <= width b).
Proof.
  intros Hr. rewrite (tooSmall_inRange b Hr).
  destruct (border b); rewrite orb_false_iff, Z.ltb_ge, Z.leb_gt; lia.
Qed.

(** X2. On a box in range that passes the guard, the width that [Draw]
    hands to [Print] is the width of the box without border and the width
    less 3 with one, and it is at least 1. *)
Theorem maxWidth_positive (c : Checkbox) :
  inRange (Box_ c) ->
  tooSmall (Box_ c) = false ->
  maxWidth c = (if border (Box_ c) then width (Box_ c) - 3 else width (Box_ c))
  /\ 1 <= maxWidth c.
Proof.
  intros Hr Hs. rewrite (tooSmall_inRange _ Hr) in Hs.
  rewrite (maxWidth_inRange c Hr).
  destruct (border (Box_ c)); apply orb_false_elim in Hs as [_ Hs];
    split; lia.
Qed.

Section Geometry.

Variable BoxDraw : Box -> tcell.Screen -> tcell.Screen.
Variable Print :
  tcell.Screen -> string -> int -> int -> int -> Align -> tcell.Color ->
  tcell.Screen * int.


(** X3. On a box in range that passes the guard, and when [Print] returns
    a width between 0 and the width it was given, [Draw] writes the toggle
    on the first row of the rectangle, at a column from [x] to [x + width]
    without border, and from [x + 1] to [x + width - 2] with one: it is
    never written on the border. *)
Theorem Draw_toggle_position (c : Checkbox) (s : tcell.Screen) :
  inRange (Box_ c) ->
  tooSmall (Box_ c) = false ->
  0 <= snd (labelled BoxDraw Print c s) <= maxWidth c ->
  exists col row,
    snd (Draw BoxDraw Print c s) =
      (let s2 := tcell.SetContent col row (checkedRune c) [] (fieldStyle c)
                   (fst (labelled BoxDraw Print c s)) in
       if HasFocus (focus (Box_ c)) then tcell.HideCursor s2 else s2)
    /\ (if border (Box_ c)
        then x (Box_ c) + 1 <= col <= x (Box_ c) + width (Box_ c) - 2
             /\ row = y (Box_ c) + 1
        else x (Box_ c) <= col <= x (Box_ c) + width (Box_ c)
             /\ row = y (Box_ c)).
Proof.
  intros Hr Hs Hn.
  exists (toggleColumn c (snd (labelled BoxDraw Print c s))), (toggleRow c).
  split.
  - rewrite Draw_unfold, Hs. by destruct (labelled BoxDraw Print c s).
  - rewrite (maxWidth_inRange c Hr) in Hn.
    set (n := snd (labelled BoxDraw Print c s)) in *.
    unfold toggleColumn, toggleRow. rewrite (prepare_inRange _ Hr).
    destruct Hr as (Hx & Hy & Hw & Hh).
    assert (forall z, - 2 ^ 63 + 2 <= z < 2 ^ 63 -> wrap z = z) as Hsm.
    { intros z Hz. apply wrap_small. unfold in_int. int_lia. }
    destruct (border (Box_ c)); unfold add; rewrite Hsm by int_lia; int_lia.
Qed.

(** X4. [Draw] hides the cursor only after it has drawn the toggle: on a
    checkbox that does not pass the guard the cursor is as [Box.Draw] left
    it, focus or not; otherwise it is hidden with focus, and as [Print]
    left it without. *)
Theorem Draw_cursor (c : Checkbox) (s : tcell.Screen) :
  tcell.cursor (snd (Draw BoxDraw Print c s)) =
    if tooSmall (Box_ c) then tcell.cursor (BoxDraw (Box_ c) s)
    else if HasFocus (focus (Box_ c)) then None
    else tcell.cursor (fst (labelled BoxDraw Print c s)).
Proof.
  rewrite Draw_unfold. destruct (tooSmall (Box_ c)); [done|].
  destruct (labelled BoxDraw Print c s) as [s1 n].
  by destruct (HasFocus (focus (Box_ c))).
Qed.

End Geometry.

(** * Further properties of InputHandler *)

Section InputSequences.

Context {App : Type}.
Variable callChanged : Func -> bool -> Checkbox -> App -> Checkbox * App.
Variable callDone : Func -> tcell.Key -> Checkbox -> App -> Checkbox * App.

Lemma finishes_spec (event : tcell.EventKey) :
  finishes event = true ->
  tcell.Key_ event = tcell.KeyTab \/ tcell.Key_ event = tcell.KeyBacktab
  \/ tcell.Key_ event = tcell.KeyEscape.
Proof. unfold finishes. destruct (tcell.Key_ event); try discriminate; auto. Qed.

Lemma toggles_finishes (event : tcell.EventKey) :
  toggles event = true -> finishes event = false.
Proof. unfold toggles, finishes. by destruct (tcell.Key_ event). Qed.

Lemma InputHandler_other (event : tcell.EventKey) (w : World App) :
  toggles event = false -> finishes event = false ->
  InputHandler callChanged callDone event w = w.
Proof.
  unfold toggles, finishes, InputHandler.
  destruct (tcell.Key_ event); try discriminate; try done.
  intros ->. done.
Qed.

Lemma set_checked_same (c : Checkbox) : set_checked (checked c) c = c.
Proof. by destruct c. Qed.

Lemma InputHandler_callsOf (event : tcell.EventKey) (w : World App) :
  calls (InputHandler callChanged callDone event w)
  = calls w ++ callsOf event (widget w).
Proof.
  unfold callsOf. destruct (toggles event) eqn:Ht.
  - rewrite InputHandler_toggles by done. cbn zeta.
    destruct (changed (widget w)) as [f|]; cbn.
    + unfold invokeChanged, updWidget. cbn [widget app calls].
      by destruct (callChanged f _ _ _).
    + by rewrite app_nil_r.
  - destruct (finishes event) eqn:Hf.
    + rewrite InputHandler_finishes by (by apply finishes_spec).
      destruct (done (widget w)) as [f|]; cbn.
      * unfold invokeDone. by destruct (callDone f _ _ _).
      * by rewrite app_nil_r.
    + rewrite InputHandler_other by done. by rewrite app_nil_r.
Qed.

(** X5. Whatever the callbacks do, one event adds at most one call to the
    record, before which the record is kept: a call of [changed], with the
    negated flag, on Enter and space when [changed] is set; a call of
    [done], with the key, on Tab, Backtab and Escape when [done] is set;
    and nothing otherwise. No event is of both kinds. *)
Theorem InputHandler_calls (event : tcell.EventKey) (w : World App) :
  calls (InputHandler callChanged callDone event w)
  = calls w ++ callsOf event (widget w)
  /\ (length (callsOf event (widget w)) <= 1)%nat
  /\ toggles event && finishes event = false.
Proof.
  split; [apply InputHandler_callsOf|]. unfold callsOf.
  destruct (toggles event) eqn:Ht.
  - rewrite (toggles_finishes event Ht).
    destruct (changed (widget w)); cbn; split; (lia || done).
  - destruct (finishes event), (done (widget w)); cbn; split; (lia || done).
Qed.

Lemma handleAll_plain (events : list tcell.EventKey) (w : World App) :
  changed (widget w) = None ->
  done (widget w) = None ->
  handleAll callChanged callDone events w =
    updWidget
      (set_checked (xorb (checked (widget w)) (Nat.odd (countToggles events))))
      w.
Proof.
  intros Hc Hd. induction events as [|event events IH] using rev_ind.
  - unfold updWidget. cbn. rewrite xorb_false_r, set_checked_same.
    by destruct w.
  - rewrite handleAll_snoc, IH. unfold countToggles.
    rewrite List.filter_app, length_app. cbn [List.filter].
    destruct (toggles event) eqn:Ht.
    + rewrite InputHandler_toggles by done. cbn zeta.
      unfold updWidget. cbn [widget app calls set_checked changed checked].
      rewrite Hc. cbn [widget app calls set_checked Box_ label labelColor
        fieldBackgroundColor fieldTextColor changed done checked].
      cbn [length]. rewrite Nat.add_1_r, Nat.odd_succ, <- Nat.negb_odd.
      by destruct (checked (widget w)), (Nat.odd _).
    + cbn [length]. rewrite Nat.add_0_r.
      destruct (finishes event) eqn:Hf.
      * rewrite InputHandler_finishes by (by apply finishes_spec).
        unfold updWidget at 1. cbn [widget set_checked done]. by rewrite Hd.
      * by rewrite InputHandler_other.
Qed.

Lemma set_checked_twice (a b : bool) (c : Checkbox) :
  set_checked a (set_checked b c) = set_checked a c.
Proof. reflexivity. Qed.

Lemma checked_set_checked (b : bool) (c : Checkbox) :
  checked (set_checked b c) = b.
Proof. reflexivity. Qed.

Lemma xorb_odd_succ (b : bool) (n : nat) :
  negb (xorb b (Nat.odd n)) = xorb b (Nat.odd (n + 1)).
Proof.
  rewrite Nat.add_1_r, Nat.odd_succ, <- Nat.negb_odd.
  by destruct b, (Nat.odd n).
Qed.

(** X6. With neither callback installed, a sequence of events of any kind
    changes nothing but [checked], which ends as its initial value XOR the
    parity of the number of Enter and space events: the other fields, the
    application and the record of calls are as before. *)
Theorem handleAll_no_callbacks (events : list tcell.EventKey) (w : World App) :
  changed (widget w) = None ->
  done (widget w) = None ->
  let w' := handleAll callChanged callDone events w in
  widget w' =
    set_checked (xorb (checked (widget w)) (Nat.odd (countToggles events)))
                (widget w)
  /\ app w' = app w
  /\ calls w' = calls w.
Proof. intros Hc Hd. cbn zeta. by rewrite handleAll_plain. Qed.

(** X7. With callbacks that observe (or none), and for a sequence of
    events of any kind: the widget ends as it was but for [checked], which
    is its initial value XOR the parity of the number of Enter and space
    events; [changed], when set, has been called once per such event; and
    [done], when set, once per Tab, Backtab and Escape event. *)
Theorem handleAll_counts (events : list tcell.EventKey) (w : World App) :
  (forall f, changed (widget w) = Some f -> observes callChanged f) ->
  (forall f, done (widget w) = Some f -> observesDone callDone f) ->
  let w' := handleAll callChanged callDone events w in
  widget w' =
    set_checked (xorb (checked (widget w)) (Nat.odd (countToggles events)))
                (widget w)
  /\ changedCount w' =
       (changedCount w
        + match changed (widget w) with
          | Some _ => countToggles events
          | None => 0
          end)%nat
  /\ doneCount w' =
       (doneCount w
        + match done (widget w) with
          | Some _ => countFinishes events
          | None => 0
          end)%nat.
Proof.
  intros Hoc Hod. induction events as [|event events IH] using rev_ind.
  - cbn. rewrite xorb_false_r, set_checked_same.
    destruct (changed (widget w)), (done (widget w)); repeat split; lia.
  - cbn zeta in *. rewrite handleAll_snoc.
    set (w1 := handleAll callChanged callDone events w) in *.
    destruct IH as (IHw & IHc & IHd).
    assert (changed (widget w1) = changed (widget w)) as Ec by (by rewrite IHw).
    assert (done (widget w1) = done (widget w)) as Ed by (by rewrite IHw).
    unfold countToggles, countFinishes, changedCount, doneCount in *.
    rewrite !List.filter_app, !length_app. cbn [List.filter].
    destruct (toggles event) eqn:Ht.
    + rewrite (toggles_finishes event Ht). cbn [length].
      rewrite InputHandler_toggles by done. cbn zeta. rewrite Ec.
      destruct (changed (widget w)) as [f|] eqn:Hf.
      * unfold invokeChanged, updWidget. cbn [widget app calls].
        match goal with |- context [callChanged f ?b ?c ?a] =>
          pose proof (Hoc f eq_refl b c a) as Hfst;
          destruct (callChanged f b c a) as [c2 a2] end.
        cbn [fst] in Hfst. subst c2. cbn [widget calls].
        rewrite !List.filter_app, !length_app. cbn [List.filter isChanged isDone length].
        rewrite IHw, set_checked_twice, checked_set_checked, xorb_odd_succ.
        rewrite IHc, IHd. destruct (done (widget w)); repeat split; lia.
      * unfold updWidget. cbn [widget app calls].
        rewrite IHw, set_checked_twice, checked_set_checked, xorb_odd_succ.
        rewrite IHc, IHd. destruct (done (widget w)); repeat split; lia.
    + cbn [length]. rewrite Nat.add_0_r. destruct (finishes event) eqn:Hfin.
      * rewrite InputHandler_finishes by (by apply finishes_spec). rewrite Ed.
        destruct (done (widget w)) as [f|] eqn:Hf.
        -- unfold invokeDone.
           match goal with |- context [callDone f ?b ?c ?a] =>
             pose proof (Hod f eq_refl b c a) as Hfst;
             destruct (callDone f b c a) as [c2 a2] end.
           cbn [fst] in Hfst. subst c2. cbn [widget calls].
           rewrite !List.filter_app, !length_app. cbn [List.filter isChanged isDone length].
           rewrite IHc, IHd. destruct (changed (widget w)); repeat split; try lia; done.
        -- cbn [length]. rewrite IHc, IHd.
           destruct (changed (widget w)); repeat split; try lia; done.
      * rewrite InputHandler_other by done. cbn [length].
        rewrite IHc, IHd.
        destruct (changed (widget w)), (done (widget w)); repeat split; try lia; done.
Qed.

End InputSequences.

(** * The setters and the constructor, with InputHandler and Draw *)

Section Setters.

Context {App : Type}.
Variable callChanged : Func -> bool -> Checkbox -> App -> Checkbox * App.
Variable callDone : Func -> tcell.Key -> Checkbox -> App -> Checkbox * App.
Variable BoxDraw : Box -> tcell.Screen -> tcell.Screen.
Variable Print :
  tcell.Screen -> string -> int -> int -> int -> Align -> tcell.Color ->
  tcell.Screen * int.

(** X8. [SetChangedFunc] replaces the handler: on Enter and space the
    handler installed last is the only one called, whatever was installed
    before; after [SetChangedFunc(nil)] no call is made, and the event
    still negates the flag. *)
Theorem SetChangedFunc_then_toggle (handler : option Func)
    (event : tcell.EventKey) (w : World App) :
  toggles event = true ->
  calls (InputHandler callChanged callDone event
           (updWidget (SetChangedFunc handler) w)) =
    calls w ++
    match handler with
    | Some g => [CallChanged g (negb (checked (widget w)))]
    | None => []
    end
  /\ InputHandler callChanged callDone event
       (updWidget (SetChangedFunc None) w) =
     updWidget (fun c => set_checked (negb (checked c)) (SetChangedFunc None c))
               w.
Proof.
  intros Ht. split.
  - rewrite InputHandler_callsOf. unfold callsOf, updWidget.
    cbn [widget calls SetChangedFunc set_changed changed checked done].
    by rewrite Ht.
  - rewrite InputHandler_toggles by done. reflexivity.
Qed.

(** X9. [SetFinishedFunc] installs the handler that [SetDoneFunc]
    installs: on Tab, Backtab and Escape that handler is the only one
    called, with the key of the event, whatever was installed before;
    after [SetFinishedFunc(nil)] the event changes nothing. *)
Theorem SetFinishedFunc_then_finish (handler : option Func)
    (event : tcell.EventKey) (w : World App) :
  finishes event = true ->
  updWidget (SetFinishedFunc handler) w = updWidget (SetDoneFunc handler) w
  /\ calls (InputHandler callChanged callDone event
              (updWidget (SetFinishedFunc handler) w)) =
       calls w ++
       match handler with
       | Some g => [CallDone g (tcell.Key_ event)]
       | None => []
       end
  /\ InputHandler callChanged callDone event
       (updWidget (SetFinishedFunc None) w) =
     updWidget (SetFinishedFunc None) w.
Proof.
  intros Hf. split; [done|]. split.
  - rewrite InputHandler_callsOf. unfold callsOf, updWidget.
    cbn [widget calls SetFinishedFunc SetDoneFunc set_done changed checked done].
    destruct (toggles event) eqn:Ht.
    + rewrite (toggles_finishes event Ht) in Hf. discriminate.
    + by rewrite Hf.
  - rewrite InputHandler_finishes by (by apply finishes_spec). reflexivity.
Qed.

(** X10. [SetFormAttributes] amounts to the four setters of the label and
    the colours, and an assignment to the background colour of the box; it
    leaves [checked], both callbacks, and the position, size, border and
    focus of the box as they were; and of two calls in a row only the
    second one counts. *)
Theorem SetFormAttributes_setters (l l0 : string)
    (lc bg ft fb lc0 bg0 ft0 fb0 : tcell.Color) (c : Checkbox) :
  let c' := SetFormAttributes l lc bg ft fb c in
  c' = set_backgroundColor bg
         (SetFieldBackgroundColor fb
            (SetFieldTextColor ft (SetLabelColor lc (SetLabel l c))))
  /\ checked c' = checked c /\ changed c' = changed c /\ done c' = done c
  /\ Box_ c' = mkBox (x (Box_ c)) (y (Box_ c)) (width (Box_ c))
                     (height (Box_ c)) (border (Box_ c)) bg (focus (Box_ c))
  /\ SetFormAttributes l lc bg ft fb (SetFormAttributes l0 lc0 bg0 ft0 fb0 c)
     = c'.
Proof. cbn zeta. by repeat split. Qed.


Variable NewBox : Box.
Variables ColorYellow ColorBlue ColorWhite : tcell.Color.


End Setters.

(** * The further properties on concrete inputs *)

Lemma sampleBox_inRange (border focused : bool) :
  inRange (sampleBox 0 0 10 3 border focused).
Proof. unfold inRange. cbn. int_lia. Qed.

Lemma sampleDone_observes : observesDone sampleDone 0%nat.
Proof. intros arg c a. reflexivity. Qed.

Lemma tooSmall_thresholds_witness :
  tooSmall (sampleBox 0 0 10 3 true false) = false <-> 3 <= 3 /\ 4 <= 10.
Proof.
  apply (tooSmall_thresholds (sampleBox 0 0 10 3 true false)
           (sampleBox_inRange true false)).
Defined.

Lemma maxWidth_positive_witness :
  let c := sampleCheckbox (sampleBox 0 0 10 3 true false) "Accept" true None None in
  maxWidth c = 10 - 3 /\ 1 <= maxWidth c.
Proof.
  intros c.
  apply (maxWidth_positive c (sampleBox_inRange true false)). reflexivity.
Defined.

Lemma Draw_toggle_position_witness :
  let c := sampleCheckbox (sampleBox 0 0 10 3 true false) "Accept" true None None in
  exists col row,
    snd (Draw sampleBoxDraw samplePrint c emptyScreen) =
      tcell.SetContent col row (checkedRune c) [] (fieldStyle c)
        (fst (labelled sampleBoxDraw samplePrint c emptyScreen))
    /\ (0 + 1 <= col <= 0 + 10 - 2 /\ row = 0 + 1).
Proof.
  intros c.
  apply (Draw_toggle_position sampleBoxDraw samplePrint c emptyScreen
           (sampleBox_inRange true false)).
  - reflexivity.
  - vm_compute. split; discriminate.
Defined.

Lemma handleAll_no_callbacks_witness :
  let w := sampleWorld None None in
  let w' := handleAll sampleChanged sampleDone [keySpace; keyTab; keyEnter; keySpace] w in
  widget w' = set_checked true (widget w) /\ app w' = app w /\ calls w' = calls w.
Proof.
  intros w.
  apply (handleAll_no_callbacks sampleChanged sampleDone
           [keySpace; keyTab; keyEnter; keySpace] w); reflexivity.
Defined.

Lemma handleAll_counts_witness :
  let w := sampleWorld (Some 0%nat) (Some 0%nat) in
  let w' := handleAll sampleChanged sampleDone [keySpace; keyTab; keyEnter; keySpace] w in
  widget w' = set_checked true (widget w)
  /\ changedCount w' = (changedCount w + 3)%nat
  /\ doneCount w' = (doneCount w + 1)%nat.
Proof.
  intros w.
  apply (handleAll_counts sampleChanged sampleDone
           [keySpace; keyTab; keyEnter; keySpace] w).
  - intros f [= <-]. apply sampleChanged_observes.
  - intros f [= <-]. apply sampleDone_observes.
Defined.

Lemma SetChangedFunc_then_toggle_witness :
  let w := sampleWorld (Some 1%nat) (Some 0%nat) in
  calls (InputHandler sampleChanged sampleDone keyEnter
           (updWidget (SetChangedFunc (Some 0%nat)) w))
    = [CallChanged 0%nat true]
  /\ InputHandler sampleChanged sampleDone keyEnter
       (updWidget (SetChangedFunc None) w) =
     updWidget (fun c => set_checked (negb (checked c)) (SetChangedFunc None c))
               w.
Proof.
  intros w.
  apply (SetChangedFunc_then_toggle sampleChanged sampleDone (Some 0%nat)
           keyEnter w).
  reflexivity.
Defined.

Lemma SetFinishedFunc_then_finish_witness :
  let w := sampleWorld (Some 0%nat) (Some 1%nat) in
  updWidget (SetFinishedFunc (Some 0%nat)) w
    = updWidget (SetDoneFunc (Some 0%nat)) w
  /\ calls (InputHandler sampleChanged sampleDone keyTab
              (updWidget (SetFinishedFunc (Some 0%nat)) w))
     = [CallDone 0%nat tcell.KeyTab]
  /\ InputHandler sampleChanged sampleDone keyTab
       (updWidget (SetFinishedFunc None) w) =
     updWidget (SetFinishedFunc None) w.
Proof.
  intros w.
  apply (SetFinishedFunc_then_finish sampleChanged sampleDone (Some 0%nat)
           keyTab w).
  reflexivity.
Defined.
